(** * frontend-mcp-server/demo.py: the demo client, its call sequence and
      its error paths

    The script builds an [MCPConnector] and, inside a
    [try / except Exception / finally], awaits [connect], awaits one
    [tool_call], prints the result, and always awaits [close].  The [mcp]
    package is an external collaborator: it is taken here as an arbitrary
    interface ([MCP]) whose operations may return or raise, so every
    statement below holds for every behaviour of the library. *)

From Stdlib Require Import ZArith List Ascii String Sorted.
From stdpp Require Import base gmap strings list.

Set Default Proof Using "Type".
Open Scope Z_scope.

(** ** Python exceptions and outcomes *)

(** The classes an awaited call can raise.  The first four derive from
    [Exception]; [CancelledError] (Python 3.8 and later),
    [KeyboardInterrupt] and [SystemExit] derive from [BaseException] only. *)
Inductive exc_class : Type :=
  | ConnectionError
  | InvocationError
  | AttributeError
  | OtherException (name : string)
  | CancelledError
  | KeyboardInterrupt
  | SystemExit (code : Z).

(** An exception object: its class and [str(e)]. *)
Record exn : Type := Exn { exn_class : exc_class; exn_str : string }.

(** [isinstance(e, Exception)], the test made by [except Exception]. *)
Definition is_Exception (e : exn) : bool :=
  match exn_class e with
  | CancelledError | KeyboardInterrupt | SystemExit _ => false
  | _ => true
  end.

Definition is_SystemExit (e : exn) : bool :=
  match exn_class e with
  | SystemExit _ => true
  | _ => false
  end.

(** How the evaluation of an expression ends. *)
Inductive outcome (A : Type) : Type :=
  | Return (a : A)
  | Raise (e : exn).
Arguments Return {A} a.
Arguments Raise {A} e.

Definition returned {A} (r : outcome A) : bool :=
  match r with Return _ => true | Raise _ => false end.

(** ** The data the script builds *)

(** [ToolCallParams(tool_name=..., arguments={...})]. *)
Record ToolCallParams : Type :=
  { tool_name : string; arguments : gmap string string }.

(** ** The [mcp] package as an interface

    [World] is the state of everything outside the script (the library, the
    server process, the operating system, the command line and the
    environment); each call takes the world it finds and leaves a world and
    an outcome.  [result] is the attribute access [result.result] followed
    by the [str] that [print] applies to it. *)
Record MCP : Type :=
  { World : Type;
    Connector : Type;
    ToolCallResult : Type;
    MCPServiceType : Type;
    stdio : MCPServiceType;
    MCPConnector : string -> MCPServiceType -> World -> outcome Connector * World;
    connect : Connector -> World -> outcome unit * World;
    tool_call : Connector -> ToolCallParams -> World -> outcome ToolCallResult * World;
    close : Connector -> World -> outcome unit * World;
    result : ToolCallResult -> outcome string }.

(** ** Observable events of a run, in the order they happen *)
Inductive event (L : MCP) : Type :=
  | EvNew (name : string) (ty : MCPServiceType L) (r : outcome (Connector L))
  | EvConnect (c : Connector L) (r : outcome unit)
  | EvToolCall (c : Connector L) (p : ToolCallParams) (r : outcome (ToolCallResult L))
  | EvClose (c : Connector L) (r : outcome unit)
  | EvPrint (line : string).
Arguments EvNew {L} name ty r.
Arguments EvConnect {L} c r.
Arguments EvToolCall {L} c p r.
Arguments EvClose {L} c r.
Arguments EvPrint {L} line.

(** ** A small monad: world passing, exceptions, and the trace written *)
Module Run.

Definition M (L : MCP) (A : Type) : Type :=
  World L -> outcome A * World L * list (event L).

Definition ret {L A} (a : A) : M L A := fun w => (Return a, w, []).

Definition bind {L A B} (m : M L A) (f : A -> M L B) : M L B :=
  fun w =>
    let '(r, w1, t1) := m w in
    match r with
    | Return a => let '(r2, w2, t2) := f a w1 in (r2, w2, t1 ++ t2)
    | Raise e => (Raise e, w1, t1)
    end.

(** [try: body  except Exception as e: handler e]: only instances of
    [Exception] reach the handler, anything else keeps propagating. *)
Definition try_except_Exception {L A}
    (body : M L A) (handler : exn -> M L A) : M L A :=
  fun w =>
    let '(r, w1, t1) := body w in
    match r with
    | Return a => (Return a, w1, t1)
    | Raise e =>
        if is_Exception e
        then let '(r2, w2, t2) := handler e w1 in (r2, w2, t1 ++ t2)
        else (Raise e, w1, t1)
    end.

(** [try: body  finally: cleanup]: the cleanup always runs; when it
    raises, its exception replaces whatever the body ended with. *)
Definition try_finally {L A} (body : M L A) (cleanup : M L unit) : M L A :=
  fun w =>
    let '(r, w1, t1) := body w in
    let '(rc, w2, t2) := cleanup w1 in
    match rc with
    | Return _ => (r, w2, t1 ++ t2)
    | Raise e => (Raise e, w2, t1 ++ t2)
    end.

(** Evaluation of an expression that touches no external state. *)
Definition pure {L A} (r : outcome A) : M L A := fun w => (r, w, []).

(** A call into the library, recorded with its outcome. *)
Definition call {L A} (op : World L -> outcome A * World L)
    (ev : outcome A -> event L) : M L A :=
  fun w => let '(r, w1) := op w in (r, w1, [ev r]).

(** [print(s)]: one line on standard output.  Writing to standard output
    is taken not to fail. *)
Definition print {L} (s : string) : M L unit :=
  fun w => (Return tt, w, [EvPrint s]).

End Run.

Notation "x <- m ;; k" := (Run.bind m (fun x => k))
  (at level 100, m at next level, right associativity).
Notation "m ;;; k" := (Run.bind m (fun _ => k))
  (at level 100, right associativity).

(** ** The script

    The [import] of the names from [mcp] is taken to succeed, and
    [ToolCallParams(...)] to build the plain record above; every other step
    of [get_react_docs] is followed as written. *)
Section Script.

Variable L : MCP.

Definition new_MCPConnector (name : string) (ty : MCPServiceType L)
  : Run.M L (Connector L) :=
  Run.call (MCPConnector L name ty) (EvNew name ty).

Definition await_connect (c : Connector L) : Run.M L unit :=
  Run.call (connect L c) (EvConnect c).

Definition await_tool_call (c : Connector L) (p : ToolCallParams)
  : Run.M L (ToolCallResult L) :=
  Run.call (tool_call L c p) (EvToolCall c p).

Definition await_close (c : Connector L) : Run.M L unit :=
  Run.call (close L c) (EvClose c).

Definition the_server_name : string :=
  "github.com/awslabs/mcp/tree/main/src/frontend-mcp-server".

Definition the_request : ToolCallParams :=
  {| tool_name := "GetReactDocsByTopic";
     arguments := {[ "topic" := "essential-knowledge" ]} |}.

Definition the_header : string :=
  "Retrieved React Documentation for Essential Knowledge:".

(** The statements between [try:] and [except]. *)
Definition try_body (connector : Connector L) : Run.M L unit :=
  await_connect connector ;;;
  res <- await_tool_call connector the_request ;;
  Run.print the_header ;;;
  s <- Run.pure (result L res) ;;
  Run.print s.

(** [except Exception as e: print(f"Error: {e}")]. *)
Definition handler (e : exn) : Run.M L unit :=
  Run.print ("Error: " +:+ exn_str e).

(** [async def get_react_docs()]. *)
Definition get_react_docs : Run.M L unit :=
  connector <- new_MCPConnector the_server_name (stdio L) ;;
  Run.try_finally
    (Run.try_except_Exception (try_body connector) handler)
    (await_close connector).

(** [asyncio.run(coro)] runs the coroutine to its end and hands back what
    it returned or raised. *)
Definition asyncio_run {A} (coro : Run.M L A) : Run.M L A := coro.

(** The module body, executed with [__name__] bound to [name]. *)
Definition module_body (name : string) : Run.M L unit :=
  if String.eqb name "__main__" then asyncio_run get_react_docs
  else Run.ret tt.

(** The script run as a program. *)
Definition main : Run.M L unit := module_body "__main__".

End Script.

(** The exit status the interpreter gives the process: 0 when the module
    body ends normally; for an exception nobody caught, 1, except that
    [SystemExit] carries its own status and [KeyboardInterrupt] ends the
    process as an interrupt does. *)
Definition exit_status (r : outcome unit) : Z :=
  match r with
  | Return _ => 0
  | Raise e =>
      match exn_class e with
      | SystemExit code => code `mod` 256
      | KeyboardInterrupt => 130
      | _ => 1
      end
  end.

(** ** What is observed of a run *)
Section Observations.

Context {L : MCP}.

Definition run_outcome (w : World L) : outcome unit := (main L w).1.1.

Definition run_trace (w : World L) : list (event L) := (main L w).2.

Definition is_new (ev : event L) : bool :=
  match ev with EvNew _ _ _ => true | _ => false end.

Definition is_connect (ev : event L) : bool :=
  match ev with EvConnect _ _ => true | _ => false end.

Definition is_tool_call (ev : event L) : bool :=
  match ev with EvToolCall _ _ _ => true | _ => false end.

Definition is_close (ev : event L) : bool :=
  match ev with EvClose _ _ => true | _ => false end.

(** The call recorded by the event returned (a print always does). *)
Definition ev_returned (ev : event L) : bool :=
  match ev with
  | EvNew _ _ r => returned r
  | EvConnect _ r => returned r
  | EvToolCall _ _ r => returned r
  | EvClose _ r => returned r
  | EvPrint _ => true
  end.

(** How many events of a trace satisfy [f]. *)
Definition count (f : event L -> bool) (t : list (event L)) : nat :=
  length (List.filter f t).

(** The lines written to standard output, in order. *)
Fixpoint printed (t : list (event L)) : list string :=
  match t with
  | [] => []
  | EvPrint s :: t' => s :: printed t'
  | _ :: t' => printed t'
  end.

(** An awaited [connect] or [tool_call] on [c] ended by raising [e]. *)
Definition raised_in_call (c : Connector L) (e : exn) (t : list (event L)) : Prop :=
  In (EvConnect c (Raise e)) t \/ exists p, In (EvToolCall c p (Raise e)) t.

(** The two states of a connection, and the trace read as a walk through
    them: a successful [connect] opens, [close] releases, and a tool call
    is only accepted while connected. *)
Inductive conn_state : Type := Disconnected | Connected.

Definition conn_step (s : conn_state) (ev : event L) : option conn_state :=
  match ev with
  | EvConnect _ (Return _) => Some Connected
  | EvConnect _ (Raise _) => Some Disconnected
  | EvToolCall _ _ _ =>
      match s with Connected => Some Connected | Disconnected => None end
  | EvClose _ _ => Some Disconnected
  | EvNew _ _ _ | EvPrint _ => Some s
  end.

Fixpoint conn_walk (s : conn_state) (t : list (event L)) : option conn_state :=
  match t with
  | [] => Some s
  | ev :: t' =>
      match conn_step s ev with
      | Some s' => conn_walk s' t'
      | None => None
      end
  end.

End Observations.

(** The bytes on standard output: every printed line and its newline. *)
Definition stdout_text (lines : list string) : string :=
  fold_right (fun s acc => s +:+ String "010"%char acc) EmptyString lines.

(** ** A library whose behaviour is written down in advance

    Used to run the script on concrete behaviours: the world is the plan of
    what each call does.  A tool result is [Some s] when [result.result]
    reads as [s], and [None] for an object without that attribute. *)
Module Scripted.

Record plan : Type :=
  { on_new : outcome unit;
    on_connect : outcome unit;
    on_tool_call : outcome (option string);
    on_close : outcome unit }.

Definition no_result_attribute : exn :=
  Exn AttributeError "'NoneType' object has no attribute 'result'".

Definition lib : MCP :=
  {| World := plan;
     Connector := unit;
     ToolCallResult := option string;
     MCPServiceType := unit;
     stdio := tt;
     MCPConnector := fun _ _ w => (on_new w, w);
     connect := fun _ w => (on_connect w, w);
     tool_call := fun _ _ w => (on_tool_call w, w);
     close := fun _ w => (on_close w, w);
     result := fun r =>
       match r with
       | Some s => Return s
       | None => Raise no_result_attribute
       end |}.

Definition ok : outcome unit := Return tt.

Definition unreachable_error : exn := Exn ConnectionError "unreachable".
Definition not_connected_error : exn := Exn ConnectionError "not connected".
Definition rejected_error : exn := Exn InvocationError "rejected".
Definition channel_lost_error : exn := Exn ConnectionError "channel lost".
Definition cancellation : exn := Exn CancelledError "".
Definition bad_service_type : exn := Exn (OtherException "ValueError") "bad service type".

(** Everything works and the tool answers ["docs"]. *)
Definition all_fine : plan :=
  {| on_new := ok; on_connect := ok;
     on_tool_call := Return (Some "docs"); on_close := ok |}.

(** The server cannot be reached. *)
Definition unreachable : plan :=
  {| on_new := ok; on_connect := Raise unreachable_error;
     on_tool_call := Return (Some "docs"); on_close := ok |}.

(** The server cannot be reached, and closing the connector that never
    connected raises as well. *)
Definition unreachable_close_raises : plan :=
  {| on_new := ok; on_connect := Raise unreachable_error;
     on_tool_call := Return (Some "docs");
     on_close := Raise not_connected_error |}.

(** The remote side rejects the tool call. *)
Definition tool_rejected : plan :=
  {| on_new := ok; on_connect := ok;
     on_tool_call := Raise rejected_error; on_close := ok |}.

(** The tool call is rejected and then the channel is lost on close. *)
Definition tool_rejected_close_raises : plan :=
  {| on_new := ok; on_connect := ok;
     on_tool_call := Raise rejected_error;
     on_close := Raise channel_lost_error |}.

(** The coroutine is cancelled while it waits on [tool_call]. *)
Definition cancelled_in_tool_call : plan :=
  {| on_new := ok; on_connect := ok;
     on_tool_call := Raise cancellation; on_close := ok |}.

(** The tool answers with an object that has no [result] attribute. *)
Definition answer_without_result : plan :=
  {| on_new := ok; on_connect := ok;
     on_tool_call := Return None; on_close := ok |}.

(** The constructor of the connector raises. *)
Definition constructor_raises : plan :=
  {| on_new := Raise bad_service_type;
     on_connect := ok; on_tool_call := Return (Some "docs"); on_close := ok |}.

(** The events of this library, with the only connector there is. *)
Definition New (r : outcome unit) : event lib := @EvNew lib the_server_name tt r.
Definition Connect (r : outcome unit) : event lib := @EvConnect lib tt r.
Definition ToolCall (r : outcome (option string)) : event lib :=
  @EvToolCall lib tt the_request r.
Definition Close (r : outcome unit) : event lib := @EvClose lib tt r.
Definition Print (s : string) : event lib := @EvPrint lib s.

End Scripted.

Abbreviation scripted_trace := (run_trace (L := Scripted.lib)).
Abbreviation scripted_outcome := (run_outcome (L := Scripted.lib)).
Abbreviation scripted_raised := (raised_in_call (L := Scripted.lib)).

(** ** The paths through the script

    Every run follows one of a few paths, told apart by which call raised.
    The relations below list them, level by level as the source nests them:
    the try body, the try body under its [except Exception], and the whole
    function with its [finally]. *)
Section Shapes.

Context {L : MCP}.

Inductive body_shape (c : Connector L) : outcome unit -> list (event L) -> Prop :=
  | body_connect_raises e :
      body_shape c (Raise e) [EvConnect c (Raise e)]
  | body_tool_call_raises e :
      body_shape c (Raise e)
        [EvConnect c (Return tt); EvToolCall c the_request (Raise e)]
  | body_result_raises res e :
      result L res = Raise e ->
      body_shape c (Raise e)
        [EvConnect c (Return tt); EvToolCall c the_request (Return res);
         EvPrint the_header]
  | body_returns res s :
      result L res = Return s ->
      body_shape c (Return tt)
        [EvConnect c (Return tt); EvToolCall c the_request (Return res);
         EvPrint the_header; EvPrint s].

Inductive guarded_shape (c : Connector L) : outcome unit -> list (event L) -> Prop :=
  | guarded_returns t :
      body_shape c (Return tt) t ->
      guarded_shape c (Return tt) t
  | guarded_caught e t :
      body_shape c (Raise e) t ->
      is_Exception e = true ->
      guarded_shape c (Return tt) (t ++ [EvPrint ("Error: " +:+ exn_str e)])
  | guarded_passes e t :
      body_shape c (Raise e) t ->
      is_Exception e = false ->
      guarded_shape c (Raise e) t.

Inductive run_shape : outcome unit -> list (event L) -> Prop :=
  | run_new_raises e :
      run_shape (Raise e) [EvNew the_server_name (stdio L) (Raise e)]
  | run_close_returns c r t :
      guarded_shape c r t ->
      run_shape r
        (EvNew the_server_name (stdio L) (Return c) :: t ++ [EvClose c (Return tt)])
  | run_close_raises c r t e :
      guarded_shape c r t ->
      run_shape (Raise e)
        (EvNew the_server_name (stdio L) (Return c) :: t ++ [EvClose c (Raise e)]).

End Shapes.

(** ** Statements that some run refutes as they stand *)

(** When [connect] raises, neither [tool_call] nor [close] is called. *)
Definition connect_failure_skips_close : Prop :=
  forall (L : MCP) (w : World L) (c : Connector L) (e : exn),
    In (EvConnect c (Raise e)) (run_trace w) ->
    count is_tool_call (run_trace w) = 0%nat /\
    count is_close (run_trace w) = 0%nat.

(** A run that ends normally exits 0, and a run in which [connect] or
    [tool_call] raises an error prints the one line and exits 0 too. *)
Definition error_always_exits_zero : Prop :=
  forall (L : MCP) (w : World L),
    (returned (run_outcome w) = true -> exit_status (run_outcome w) = 0) /\
    (forall c e,
        is_Exception e = true -> raised_in_call c e (run_trace w) ->
        printed (run_trace w) = ["Error: " +:+ exn_str e] /\
        exit_status (run_outcome w) = 0).

(** Every run issues exactly one tool call, the fixed one, on the fixed
    descriptor, and prints the result when there is one. *)
Definition every_run_invokes_once : Prop :=
  forall (L : MCP) (w : World L),
    count is_tool_call (run_trace w) = 1%nat /\
    (forall c p r, In (EvToolCall c p r) (run_trace w) -> p = the_request) /\
    (forall name ty r, In (EvNew name ty r) (run_trace w) ->
       name = the_server_name /\ ty = stdio L) /\
    (forall c p res s,
        In (EvToolCall c p (Return res)) (run_trace w) ->
        result L res = Return s ->
        printed (run_trace w) = [the_header; s]).

(** ** Further observations of a run *)
Section MoreObservations.

Context {L : MCP}.


(** An exception raised between [try:] and [except]: by an awaited
    [connect] or [tool_call], or by reading [result.result] off what the
    tool call returned. *)
Definition raised_in_body (e : exn) (t : list (event L)) : Prop :=
  (exists c, raised_in_call c e t) \/
  (exists c p res, In (EvToolCall c p (Return res)) t /\ result L res = Raise e).

(** The place of an event in the text of [get_react_docs]: the
    constructor, [connect], [tool_call], a [print], [close]. *)
Definition phase (ev : event L) : nat :=
  match ev with
  | EvNew _ _ _ => 0
  | EvConnect _ _ => 1
  | EvToolCall _ _ _ => 2
  | EvPrint _ => 3
  | EvClose _ _ => 4
  end.

(** [a] comes from an earlier place than [b], or both are prints. *)
Definition happens_before (a b : event L) : Prop :=
  (phase a < phase b)%nat \/ (phase a = 3%nat /\ phase b = 3%nat).


End MoreObservations.

(** The line breaks in a text. *)
Fixpoint newlines (s : string) : nat :=
  match s with
  | EmptyString => 0%nat
  | String a s' => ((if Ascii.eqb a "010"%char then 1 else 0) + newlines s')%nat
  end.

(** A library with a state of its own: the world counts the calls made so
    far, and every call returns.  The tool answers with the number of calls
    made before it. *)
Module Counting.

Definition answer (n : nat) : string :=
  match n with
  | 2%nat => "third call"
  | _ => "out of turn"
  end.

Definition lib : MCP :=
  {| World := nat;
     Connector := unit;
     ToolCallResult := nat;
     MCPServiceType := unit;
     stdio := tt;
     MCPConnector := fun _ _ n => (Return tt, S n);
     connect := fun _ n => (Return tt, S n);
     tool_call := fun _ _ n => (Return n, S n);
     close := fun _ n => (Return tt, S n);
     result := fun n => Return (answer n) |}.

End Counting.

(** ** Runs on written-down behaviours *)

Example run_all_fine :
  main Scripted.lib Scripted.all_fine =
  (Return tt, Scripted.all_fine,
   [Scripted.New (Return tt);
    Scripted.Connect (Return tt);
    Scripted.ToolCall (Return (Some "docs"));
    Scripted.Print the_header;
    Scripted.Print "docs";
    Scripted.Close (Return tt)]).
Proof. reflexivity. Qed.

Example run_unreachable :
  main Scripted.lib Scripted.unreachable =
  (Return tt, Scripted.unreachable,
   [Scripted.New (Return tt);
    Scripted.Connect (Raise Scripted.unreachable_error);
    Scripted.Print "Error: unreachable";
    Scripted.Close (Return tt)]).
Proof. reflexivity. Qed.

Example run_unreachable_close_raises :
  main Scripted.lib Scripted.unreachable_close_raises =
  (Raise Scripted.not_connected_error, Scripted.unreachable_close_raises,
   [Scripted.New (Return tt);
    Scripted.Connect (Raise Scripted.unreachable_error);
    Scripted.Print "Error: unreachable";
    Scripted.Close (Raise Scripted.not_connected_error)]).
Proof. reflexivity. Qed.

Example run_tool_rejected_close_raises :
  main Scripted.lib Scripted.tool_rejected_close_raises =
  (Raise Scripted.channel_lost_error, Scripted.tool_rejected_close_raises,
   [Scripted.New (Return tt);
    Scripted.Connect (Return tt);
    Scripted.ToolCall (Raise Scripted.rejected_error);
    Scripted.Print "Error: rejected";
    Scripted.Close (Raise Scripted.channel_lost_error)]).
Proof. reflexivity. Qed.

Example run_cancelled :
  main Scripted.lib Scripted.cancelled_in_tool_call =
  (Raise Scripted.cancellation, Scripted.cancelled_in_tool_call,
   [Scripted.New (Return tt);
    Scripted.Connect (Return tt);
    Scripted.ToolCall (Raise Scripted.cancellation);
    Scripted.Close (Return tt)]).
Proof. reflexivity. Qed.

Example run_answer_without_result :
  main Scripted.lib Scripted.answer_without_result =
  (Return tt, Scripted.answer_without_result,
   [Scripted.New (Return tt);
    Scripted.Connect (Return tt);
    Scripted.ToolCall (Return None);
    Scripted.Print the_header;
    Scripted.Print "Error: 'NoneType' object has no attribute 'result'";
    Scripted.Close (Return tt)]).
Proof. reflexivity. Qed.

Example exit_statuses :
  exit_status (scripted_outcome Scripted.all_fine) = 0 /\
  exit_status (scripted_outcome Scripted.unreachable) = 0 /\
  exit_status (scripted_outcome Scripted.unreachable_close_raises) = 1 /\
  exit_status (scripted_outcome Scripted.cancelled_in_tool_call) = 1 /\
  exit_status (scripted_outcome Scripted.constructor_raises) = 1.
Proof. repeat split. Qed.

Example run_constructor_raises :
  main Scripted.lib Scripted.constructor_raises =
  (Raise Scripted.bad_service_type, Scripted.constructor_raises,
   [Scripted.New (Raise Scripted.bad_service_type)]).
Proof. reflexivity. Qed.

Example stdout_unreachable :
  stdout_text (printed (run_trace (L := Scripted.lib) Scripted.unreachable)) =
  "Error: unreachable" +:+ String "010"%char EmptyString.
Proof. reflexivity. Qed.

Example request_topic :
  arguments the_request !! "topic" = Some "essential-knowledge" /\
  dom (arguments the_request) = ({[ "topic" ]} : gset string).
Proof.
  split; unfold the_request; cbn.
  - apply lookup_singleton_eq.
  - apply dom_singleton_L.
Qed.

(** ** The program follows the paths *)
Section ShapeLemmas.

Context {L : MCP}.

Lemma try_body_shape c w :
  body_shape c (try_body L c w).1.1 (try_body L c w).2.
Proof.
  unfold try_body, Run.bind, await_connect, await_tool_call, Run.call,
    Run.print, Run.pure.
  destruct (connect L c w) as [[[]|e] w1]; cbn; [|constructor].
  destruct (tool_call L c the_request w1) as [[res|e] w2]; cbn; [|constructor].
  destruct (result L res) as [s|e] eqn:Hres; cbn.
  - by eapply body_returns.
  - by eapply body_result_raises.
Qed.

Lemma guarded_try_shape c w :
  let m := Run.try_except_Exception (try_body L c) (handler L) in
  guarded_shape c (m w).1.1 (m w).2.
Proof.
  cbn zeta. unfold Run.try_except_Exception.
  pose proof (try_body_shape c w) as Hb.
  destruct (try_body L c w) as [[r w1] t]; cbn in Hb.
  destruct r as [[]|e]; cbn.
  - by constructor.
  - destruct (is_Exception e) eqn:He; cbn.
    + by apply guarded_caught.
    + by apply guarded_passes.
Qed.

Lemma get_react_docs_shape w :
  run_shape (get_react_docs L w).1.1 (get_react_docs L w).2.
Proof.
  unfold get_react_docs, Run.bind, new_MCPConnector, Run.call.
  destruct (MCPConnector L the_server_name (stdio L) w) as [[c|e] w1]; cbn;
    [|constructor].
  unfold Run.try_finally, await_close, Run.call.
  pose proof (guarded_try_shape c w1) as Hg. cbn zeta in Hg.
  destruct (Run.try_except_Exception _ _ w1) as [[r w2] t]; cbn in Hg.
  destruct (close L c w2) as [[[]|e] w3]; cbn.
  - by apply run_close_returns.
  - by eapply run_close_raises.
Qed.

(** The script run as a program follows one of the paths. *)
Lemma main_shape (w : World L) : run_shape (run_outcome w) (run_trace w).
Proof. apply get_react_docs_shape. Qed.

End ShapeLemmas.

(** Case analysis over the paths of the run from world [w]: everything
    that mentions the run is put back in the goal, and the goal is then
    asked on each path, with the trace written out. *)
Ltac on_paths w :=
  repeat match goal with
         | H : context [run_trace w] |- _ => revert H
         | H : context [run_outcome w] |- _ => revert H
         end;
  destruct (main_shape w) as [?|? ? ? Hg|? ? ? ? Hg];
  [| destruct Hg as [? Hb|? ? Hb ?|? ? Hb ?]; inversion Hb; subst; clear Hb ..];
  cbn; intros.

(** Membership in a written-out trace, decided event by event. *)
Ltac trace_facts :=
  repeat match goal with
         | H : _ \/ _ |- _ => destruct H
         | H : False |- _ => destruct H
         | H : ex _ |- _ => destruct H
         | H : _ /\ _ |- _ => destruct H
         end;
  simplify_eq.

(** ** Counting and printing along a trace *)
Section TraceLemmas.

Context {L : MCP}.
Implicit Types (t : list (event L)) (f : event L -> bool).

Lemma count_app f t1 t2 : count f (t1 ++ t2) = (count f t1 + count f t2)%nat.
Proof. unfold count. by rewrite List.filter_app, length_app. Qed.

Lemma printed_app t1 t2 : printed (t1 ++ t2) = printed t1 ++ printed t2.
Proof.
  induction t1 as [|ev t1 IH]; [done|].
  destruct ev; cbn; by rewrite ?IH.
Qed.

(** The try body never closes the connector, connects once, and issues at
    most one tool call. *)
Lemma body_counts c r t :
  body_shape c r t ->
  count is_close t = 0%nat /\ count is_connect t = 1%nat /\
  (count is_tool_call t <= 1)%nat.
Proof. destruct 1; cbn; lia. Qed.

Lemma guarded_counts c r t :
  guarded_shape c r t ->
  count is_close t = 0%nat /\ count is_connect t = 1%nat /\
  (count is_tool_call t <= 1)%nat.
Proof.
  destruct 1 as [t Hb|e t Hb _|e t Hb _];
    apply body_counts in Hb; rewrite ?count_app; cbn; lia.
Qed.

Lemma guarded_new_free c r t name ty rc :
  guarded_shape c r t -> ~ In (EvNew name ty rc) t.
Proof.
  destruct 1 as [t Hb|e t Hb _|e t Hb _]; destruct Hb; cbn;
    intuition discriminate.
Qed.

Lemma guarded_close_free c r t c' rc :
  guarded_shape c r t -> ~ In (EvClose c' rc) t.
Proof.
  intros Hg Hin. apply guarded_counts in Hg as (Hc & _ & _).
  unfold count in Hc. apply length_zero_iff_nil in Hc.
  assert (Hf : In (EvClose c' rc) (List.filter is_close t))
    by (by apply List.filter_In).
  rewrite Hc in Hf. destruct Hf.
Qed.

(** Whatever the guarded body called, it called it on the connector [c]. *)
Lemma guarded_same_connector c r t c' p rt :
  guarded_shape c r t -> In (EvToolCall c' p rt) t -> c' = c.
Proof.
  destruct 1 as [t Hb|e t Hb _|e t Hb _]; destruct Hb; cbn;
    intuition congruence.
Qed.

(** A run that got past the constructor is made of the constructor, the
    guarded body, and the close; the connector an event names is the one
    the constructor returned. *)
Lemma entered_connector c c' r t rc :
  guarded_shape c' r t ->
  In (EvNew the_server_name (stdio L) (Return c))
     (EvNew the_server_name (stdio L) (Return c') :: t ++ [EvClose c' rc]) \/
  (exists p e, In (EvToolCall c p (Raise e))
     (EvNew the_server_name (stdio L) (Return c') :: t ++ [EvClose c' rc])) ->
  c' = c.
Proof.
  intros Hg [[H|H]|(p & e & [H|H])]; [congruence| |discriminate|].
  - apply in_app_or in H as [H|[H|[]]]; [|discriminate].
    by apply (guarded_new_free _ _ _ _ _ _ Hg) in H.
  - apply in_app_or in H as [H|[H|[]]]; [|discriminate].
    by apply (guarded_same_connector _ _ _ _ _ _ Hg) in H.
Qed.

End TraceLemmas.

(** ** Closing the connection *)
Section Release.

Context {L : MCP}.

(** C1. Once the try block is entered (the connector was built), and so
    in particular whenever a tool call raised, [close] is awaited exactly
    once, on that connector, as the last step of the run: the trace is
    some [t] without any close, followed by the close. *)
Theorem close_once_on_every_exit (w : World L) (c : Connector L) :
  In (EvNew the_server_name (stdio L) (Return c)) (run_trace w) \/
  (exists p e, In (EvToolCall c p (Raise e)) (run_trace w)) ->
  exists t rc,
    run_trace w = t ++ [EvClose c rc] /\
    count is_close t = 0%nat /\
    count is_close (run_trace w) = 1%nat.
Proof.
  intros H. revert H.
  destruct (main_shape w) as [e|c' r t Hg|c' r t e Hg]; intros H.
  - cbn in H. destruct H as [[H|[]]|(p & e' & [H|[]])]; discriminate.
  - apply (entered_connector _ _ _ _ _ Hg) in H as ->.
    apply guarded_counts in Hg as (Hc & _ & _).
    exists (EvNew the_server_name (stdio L) (Return c) :: t), (Return tt).
    rewrite app_comm_cons, count_app. cbn. fold (count is_close t).
    by rewrite Hc.
  - apply (entered_connector _ _ _ _ _ Hg) in H as ->.
    apply guarded_counts in Hg as (Hc & _ & _).
    exists (EvNew the_server_name (stdio L) (Return c) :: t), (Raise e).
    rewrite app_comm_cons, count_app. cbn. fold (count is_close t).
    by rewrite Hc.
Qed.

(** C2, as amended. When [connect] raises, no tool call is made on the
    connector, and [close] is still awaited on it, exactly once, by the
    [finally] block. *)
Theorem connect_failure_no_invoke_one_close
    (w : World L) (c : Connector L) (e : exn) :
  In (EvConnect c (Raise e)) (run_trace w) ->
  count is_tool_call (run_trace w) = 0%nat /\
  count is_close (run_trace w) = 1%nat /\
  exists rc, In (EvClose c rc) (run_trace w).
Proof.
  intros H. on_paths w; trace_facts; repeat split; eauto 10.
Qed.

(** C9. When [close] raises in the [finally] block, the handler does not
    run for it: the close is the last event of the run, so nothing is
    printed after it, the exception is what [get_react_docs] ends with,
    and (unless it is a [SystemExit]) the process exits with a status
    other than 0.  The error path of [connect] is one of the paths on
    which this happens. *)
Theorem close_error_escapes (w : World L) (c : Connector L) (e : exn) :
  In (EvClose c (Raise e)) (run_trace w) ->
  run_outcome w = Raise e /\
  (exists t, run_trace w = t ++ [EvClose c (Raise e)] /\
             count is_close t = 0%nat) /\
  (is_SystemExit e = false -> exit_status (run_outcome w) <> 0).
Proof.
  intros H. revert H.
  destruct (main_shape w) as [e'|c' r t Hg|c' r t e' Hg]; cbn; intros H.
  - destruct H as [H|[]]; discriminate.
  - destruct H as [H|H]; [discriminate|].
    apply in_app_or in H as [H|[H|[]]]; [|discriminate].
    by apply (guarded_close_free _ _ _ _ _ Hg) in H.
  - destruct H as [H|H]; [discriminate|].
    apply in_app_or in H as [H|[H|[]]];
      [by apply (guarded_close_free _ _ _ _ _ Hg) in H|].
    injection H as -> ->. split; [done|]. split.
    + exists (EvNew the_server_name (stdio L) (Return c) :: t).
      split; [done|]. cbn. fold (count is_close t).
      by apply guarded_counts in Hg as (-> & _ & _).
    + unfold is_SystemExit. cbn. by destruct (exn_class e).
Qed.

(** C10. The connector is built before the [try]: when its constructor
    raises, that call is the whole run; nothing is printed, [close] is
    never awaited, and the exception is what [get_react_docs] ends with. *)
Theorem constructor_failure_escapes
    (w : World L) (name : string) (ty : MCPServiceType L) (e : exn) :
  In (EvNew name ty (Raise e)) (run_trace w) ->
  run_trace w = [EvNew the_server_name (stdio L) (Raise e)] /\
  printed (run_trace w) = [] /\
  count is_close (run_trace w) = 0%nat /\
  run_outcome w = Raise e.
Proof.
  intros H. on_paths w; trace_facts; done.
Qed.

End Release.

(** ** Errors, what is printed, and the exit status *)
Section Errors.

Context {L : MCP}.

(** The handler prints the message whatever the class of the error. *)
Lemma handler_ignores_class (k1 k2 : exc_class) (msg : string) :
  handler L (Exn k1 msg) = handler L (Exn k2 msg).
Proof. reflexivity. Qed.

(** C3, as amended. A run in which every call returned and the result
    could be read ends normally and exits 0.  When
    [connect] or [tool_call] raises an error (an instance of [Exception]),
    the one line ["Error: <message>"] is all that is printed, and the
    process exits 0 provided [close] then returns. *)
Theorem error_line_and_exit_status (w : World L) :
  (forallb ev_returned (run_trace w) = true ->
   (forall c p res, In (EvToolCall c p (Return res)) (run_trace w) ->
                    returned (result L res) = true) ->
   run_outcome w = Return tt /\ exit_status (run_outcome w) = 0) /\
  (forall c e,
      is_Exception e = true ->
      raised_in_call c e (run_trace w) ->
      printed (run_trace w) = ["Error: " +:+ exn_str e] /\
      (In (EvClose c (Return tt)) (run_trace w) ->
       run_outcome w = Return tt /\ exit_status (run_outcome w) = 0)).
Proof.
  split.
  - intros H Hres. on_paths w; try discriminate; try done.
    all: match goal with
         | Hr : result L ?res = Raise _, Ha : forall c p res, _ -> _ |- _ =>
             assert (returned (result L res) = true) as Hx
               by (eapply Ha; eauto 10);
             rewrite Hr in Hx; discriminate Hx
         end.
  - intros c e He H. unfold raised_in_call in H.
    on_paths w; trace_facts; try congruence;
      (split; [done|]); intros; trace_facts; done.
Qed.

(** C6. Whatever the class of an error raised by [connect] or [tool_call]
    ([ConnectionError], [InvocationError], or any other class derived from
    [Exception]), the one handler prints the one line made of its message,
    the class playing no part; and the run ends the way [close] ends, so
    the caught error leaves no mark on the exit status. *)
Theorem every_error_kind_caught_alike
    (w : World L) (c : Connector L) (e : exn) :
  is_Exception e = true ->
  raised_in_call c e (run_trace w) ->
  printed (run_trace w) = ["Error: " +:+ exn_str e] /\
  (forall k, handler L (Exn k (exn_str e)) = handler L e) /\
  exists rc,
    In (EvClose c rc) (run_trace w) /\
    run_outcome w = rc /\
    exit_status (run_outcome w) = exit_status rc.
Proof.
  intros He H. unfold raised_in_call in H.
  on_paths w; trace_facts; try congruence;
    (split; [done|]; split; [by destruct e|]; eauto 10).
Qed.

(** C7. When [connect] or [tool_call] raises, that was the only attempt:
    the run has one [connect] and at most one [tool_call], and right after
    the call that raised comes the handler's line (for an instance of
    [Exception]) and then the close, nothing else.  After a failed
    [connect] no tool call is made at all. *)
Theorem single_attempt_no_retry (w : World L) (c : Connector L) (e : exn) :
  raised_in_call c e (run_trace w) ->
  count is_connect (run_trace w) = 1%nat /\
  (count is_tool_call (run_trace w) <= 1)%nat /\
  exists rc,
    let surfaced :=
      (if is_Exception e then [EvPrint ("Error: " +:+ exn_str e)] else [])
      ++ [EvClose c rc] in
    (In (EvConnect c (Raise e)) (run_trace w) ->
     run_trace w =
       EvNew the_server_name (stdio L) (Return c) ::
       EvConnect c (Raise e) :: surfaced) /\
    ((exists p, In (EvToolCall c p (Raise e)) (run_trace w)) ->
     run_trace w =
       EvNew the_server_name (stdio L) (Return c) ::
       EvConnect c (Return tt) ::
       EvToolCall c the_request (Raise e) :: surfaced).
Proof.
  intros H. unfold raised_in_call in H.
  on_paths w; trace_facts;
    (split; [done|]; split; [lia|]);
    match goal with
    | |- context [EvClose _ ?rc :: nil] => exists rc
    end;
    match goal with
    | He : is_Exception _ = _ |- _ => rewrite He
    end;
    cbn; split; intros; trace_facts; done.
Qed.

(** C8. An exception raised at the suspension point of [connect] or
    [tool_call], a cancellation in particular, does not leave
    [get_react_docs] before [close] has been awaited: the trace is the
    raising call, then the one close.  One that is not an instance of
    [Exception] (as [CancelledError]) is not printed, and is what the
    function ends with once [close] has returned. *)
Theorem close_runs_before_cancellation_leaves
    (w : World L) (c : Connector L) (e : exn) :
  raised_in_call c e (run_trace w) ->
  exists t rc,
    run_trace w = t ++ [EvClose c rc] /\
    raised_in_call c e t /\
    count is_close t = 0%nat /\
    (is_Exception e = false ->
     printed (run_trace w) = [] /\
     run_outcome w = match rc with Return _ => Raise e | Raise e' => Raise e' end).
Proof.
  intros H. unfold raised_in_call in H |- *.
  on_paths w; trace_facts;
    match goal with
    | |- context [EvNew ?n ?ty ?r :: ?a :: ?b :: ?d :: EvClose ?c ?rc :: nil] =>
        exists [EvNew n ty r; a; b; d], rc
    | |- context [EvNew ?n ?ty ?r :: ?a :: ?b :: EvClose ?c ?rc :: nil] =>
        exists [EvNew n ty r; a; b], rc
    | |- context [EvNew ?n ?ty ?r :: ?a :: EvClose ?c ?rc :: nil] =>
        exists [EvNew n ty r; a], rc
    end;
    cbn; (split; [done|]); (split; [eauto 10|]); (split; [done|]);
    intros; try congruence; done.
Qed.

End Errors.

(** ** The one invocation *)
Section Invocation.

Context {L : MCP}.

(** C4, as amended. A run issues at most one tool call, and exactly one
    when [connect] returned; the call carries the tool name
    ["GetReactDocsByTopic"] and the arguments [{"topic":
    "essential-knowledge"}], on the connector built from the one fixed
    descriptor; when the call returned and its [result] can be read, the
    header and the result are what is printed.  Nothing of the world the
    script runs in enters the request or the descriptor. *)
Theorem at_most_one_fixed_invocation (w : World L) :
  (count is_tool_call (run_trace w) <= 1)%nat /\
  ((exists c, In (EvConnect c (Return tt)) (run_trace w)) ->
   count is_tool_call (run_trace w) = 1%nat) /\
  (forall c p r, In (EvToolCall c p r) (run_trace w) ->
     tool_name p = "GetReactDocsByTopic" /\
     arguments p = {[ "topic" := "essential-knowledge" ]} /\
     In (EvNew the_server_name (stdio L) (Return c)) (run_trace w)) /\
  count is_new (run_trace w) = 1%nat /\
  (forall name ty r, In (EvNew name ty r) (run_trace w) ->
     name = "github.com/awslabs/mcp/tree/main/src/frontend-mcp-server" /\
     ty = stdio L) /\
  (forall c p res s,
      In (EvToolCall c p (Return res)) (run_trace w) ->
      result L res = Return s ->
      printed (run_trace w) = [the_header; s]).
Proof.
  on_paths w; repeat split; intros; trace_facts;
    try done; try lia; try congruence; eauto 10.
Qed.

(** C5. A tool call is never the first thing done on the connector: in the
    trace of any run, the event just before a tool call is a [connect] on
    the same connector that returned. *)
Theorem invoke_only_after_connect
    (w : World L) (t post : list (event L)) (c : Connector L)
    (p : ToolCallParams) (r : outcome (ToolCallResult L)) :
  run_trace w = t ++ EvToolCall c p r :: post ->
  exists t', t = t' ++ [EvConnect c (Return tt)].
Proof.
  intros H.
  on_paths w;
    repeat (destruct t as [|? t]; simplify_eq/=);
    by eexists [_].
Qed.

(** Read as a walk through the two connection states, every run is
    accepted, and ends disconnected. *)
Lemma run_walks_connection_states (w : World L) :
  conn_walk Disconnected (run_trace w) = Some Disconnected.
Proof. on_paths w; done. Qed.

End Invocation.

(** ** The statements at work on written-down behaviours *)


(** A rejected tool call: the close still comes, once and last. *)
Lemma close_once_on_every_exit_witness :
  In (Scripted.ToolCall (Raise Scripted.rejected_error))
     (scripted_trace Scripted.tool_rejected) /\
  exists t rc,
    scripted_trace Scripted.tool_rejected = t ++ [Scripted.Close rc] /\
    count is_close t = 0%nat /\
    count is_close (scripted_trace Scripted.tool_rejected) = 1%nat.
Proof.
  split; [cbn; tauto|].
  apply (close_once_on_every_exit (L := Scripted.lib) Scripted.tool_rejected tt).
  right. exists the_request, Scripted.rejected_error. cbn. tauto.
Defined.

(** An unreachable server: [connect] raises and [close] is awaited all the
    same. *)
Lemma connect_failure_skips_close_refuted : ~ connect_failure_skips_close.
Proof.
  intros H.
  destruct (H Scripted.lib Scripted.unreachable tt Scripted.unreachable_error)
    as [_ Hclose].
  - cbn. tauto.
  - discriminate Hclose.
Qed.

Lemma connect_failure_no_invoke_one_close_witness :
  In (Scripted.Connect (Raise Scripted.unreachable_error))
     (scripted_trace Scripted.unreachable) /\
  count is_tool_call (scripted_trace Scripted.unreachable) = 0%nat /\
  count is_close (scripted_trace Scripted.unreachable) = 1%nat /\
  exists rc, In (Scripted.Close rc) (scripted_trace Scripted.unreachable).
Proof.
  split; [cbn; tauto|].
  apply (connect_failure_no_invoke_one_close (L := Scripted.lib)
           Scripted.unreachable tt Scripted.unreachable_error).
  cbn. tauto.
Defined.

(** A rejected tool call followed by a close that raises: the line is
    printed, and the process exits 1. *)
Lemma error_always_exits_zero_refuted : ~ error_always_exits_zero.
Proof.
  intros H.
  destruct (H Scripted.lib Scripted.tool_rejected_close_raises) as [_ Herr].
  destruct (Herr tt Scripted.rejected_error) as [_ Hexit].
  - reflexivity.
  - right. exists the_request. cbn. tauto.
  - discriminate Hexit.
Qed.

Lemma error_line_and_exit_status_witness :
  (scripted_outcome Scripted.all_fine = Return tt /\
   exit_status (scripted_outcome Scripted.all_fine) = 0) /\
  (printed (scripted_trace Scripted.tool_rejected) = ["Error: rejected"] /\
   exit_status (scripted_outcome Scripted.tool_rejected) = 0).
Proof.
  split.
  - apply (proj1 (error_line_and_exit_status (L := Scripted.lib) Scripted.all_fine)).
    + reflexivity.
    + intros c p res Hin. cbn in Hin.
      repeat (destruct Hin as [Hin|Hin]; try discriminate Hin); [|destruct Hin].
      injection Hin as _ _ <-. reflexivity.
  - destruct (proj2 (error_line_and_exit_status (L := Scripted.lib)
                       Scripted.tool_rejected) tt Scripted.rejected_error)
      as [Hline Hexit].
    + reflexivity.
    + right. exists the_request. cbn. tauto.
    + split; [exact Hline|]. apply Hexit. cbn. tauto.
Defined.

(** An unreachable server: no tool call is issued at all. *)
Lemma every_run_invokes_once_refuted : ~ every_run_invokes_once.
Proof.
  intros H.
  destruct (H Scripted.lib Scripted.unreachable) as [Hone _].
  discriminate Hone.
Qed.

Lemma at_most_one_fixed_invocation_witness :
  In (Scripted.Connect (Return tt)) (scripted_trace Scripted.all_fine) /\
  count is_tool_call (scripted_trace Scripted.all_fine) = 1%nat /\
  printed (scripted_trace Scripted.all_fine) = [the_header; "docs"].
Proof.
  destruct (at_most_one_fixed_invocation (L := Scripted.lib) Scripted.all_fine)
    as (_ & Hone & _ & _ & _ & Hprint).
  split; [cbn; tauto|]. split.
  - apply Hone. exists tt. cbn. tauto.
  - apply (Hprint tt the_request (Some "docs") "docs"); [cbn; tauto|reflexivity].
Defined.

Lemma invoke_only_after_connect_witness :
  scripted_trace Scripted.all_fine =
    [Scripted.New (Return tt); Scripted.Connect (Return tt)] ++
    Scripted.ToolCall (Return (Some "docs")) ::
    [Scripted.Print the_header; Scripted.Print "docs"; Scripted.Close (Return tt)] /\
  exists t',
    [Scripted.New (Return tt); Scripted.Connect (Return tt)] =
    t' ++ [Scripted.Connect (Return tt)].
Proof.
  split; [reflexivity|].
  apply (invoke_only_after_connect (L := Scripted.lib) Scripted.all_fine
           [Scripted.New (Return tt); Scripted.Connect (Return tt)]
           [Scripted.Print the_header; Scripted.Print "docs";
            Scripted.Close (Return tt)]
           tt the_request (Return (Some "docs"))).
  reflexivity.
Defined.

Lemma every_error_kind_caught_alike_witness :
  is_Exception Scripted.rejected_error = true /\
  scripted_raised tt Scripted.rejected_error (scripted_trace Scripted.tool_rejected) /\
  printed (scripted_trace Scripted.tool_rejected) = ["Error: rejected"] /\
  exit_status (scripted_outcome Scripted.tool_rejected) = 0.
Proof.
  assert (Hraised : scripted_raised tt Scripted.rejected_error
                      (scripted_trace Scripted.tool_rejected)).
  { right. exists the_request. cbn. tauto. }
  split; [reflexivity|]. split; [exact Hraised|].
  destruct (every_error_kind_caught_alike (L := Scripted.lib)
              Scripted.tool_rejected tt Scripted.rejected_error
              eq_refl Hraised) as (Hline & _ & _).
  split; [exact Hline|reflexivity].
Defined.

Lemma single_attempt_no_retry_witness :
  scripted_raised tt Scripted.unreachable_error (scripted_trace Scripted.unreachable) /\
  count is_connect (scripted_trace Scripted.unreachable) = 1%nat /\
  (count is_tool_call (scripted_trace Scripted.unreachable) <= 1)%nat.
Proof.
  assert (Hraised : scripted_raised tt Scripted.unreachable_error
                      (scripted_trace Scripted.unreachable)).
  { left. cbn. tauto. }
  split; [exact Hraised|].
  destruct (single_attempt_no_retry (L := Scripted.lib)
              Scripted.unreachable tt Scripted.unreachable_error Hraised)
    as (Hconnect & Htool & _).
  split; [exact Hconnect|exact Htool].
Defined.

Lemma close_runs_before_cancellation_leaves_witness :
  scripted_raised tt Scripted.cancellation
    (scripted_trace Scripted.cancelled_in_tool_call) /\
  exists t rc,
    scripted_trace Scripted.cancelled_in_tool_call = t ++ [Scripted.Close rc] /\
    scripted_raised tt Scripted.cancellation t /\
    count is_close t = 0%nat.
Proof.
  assert (Hraised : scripted_raised tt Scripted.cancellation
                      (scripted_trace Scripted.cancelled_in_tool_call)).
  { right. exists the_request. cbn. tauto. }
  split; [exact Hraised|].
  destruct (close_runs_before_cancellation_leaves (L := Scripted.lib)
              Scripted.cancelled_in_tool_call tt Scripted.cancellation Hraised)
    as (t & rc & Htrace & Hin & Hcount & _).
  exists t, rc. split; [exact Htrace|]. split; [exact Hin|exact Hcount].
Defined.

(** The error path of [connect], with a close that raises on the connector
    that never connected. *)
Lemma close_error_escapes_witness :
  In (Scripted.Connect (Raise Scripted.unreachable_error))
     (scripted_trace Scripted.unreachable_close_raises) /\
  In (Scripted.Close (Raise Scripted.not_connected_error))
     (scripted_trace Scripted.unreachable_close_raises) /\
  scripted_outcome Scripted.unreachable_close_raises =
    Raise Scripted.not_connected_error /\
  exit_status (scripted_outcome Scripted.unreachable_close_raises) <> 0.
Proof.
  split; [cbn; tauto|]. split; [cbn; tauto|].
  destruct (close_error_escapes (L := Scripted.lib)
              Scripted.unreachable_close_raises tt Scripted.not_connected_error)
    as (Hout & _ & Hexit).
  - cbn. tauto.
  - split; [exact Hout|]. apply Hexit. reflexivity.
Defined.

Lemma constructor_failure_escapes_witness :
  In (Scripted.New (Raise Scripted.bad_service_type))
     (scripted_trace Scripted.constructor_raises) /\
  scripted_trace Scripted.constructor_raises =
    [Scripted.New (Raise Scripted.bad_service_type)] /\
  printed (scripted_trace Scripted.constructor_raises) = [] /\
  count is_close (scripted_trace Scripted.constructor_raises) = 0%nat /\
  scripted_outcome Scripted.constructor_raises = Raise Scripted.bad_service_type.
Proof.
  split; [cbn; tauto|].
  apply (constructor_failure_escapes (L := Scripted.lib)
           Scripted.constructor_raises the_server_name tt
           Scripted.bad_service_type).
  cbn. tauto.
Defined.

(** ** Beyond the call sequence: output, exit, order and state *)
Section Output.

Context {L : MCP}.

(** Standard output has one of five contents: nothing; the error line
    alone, for an error of [connect] or [tool_call]; the header and the
    result; the header and the error line, for an error met while reading
    the result; or the header alone, when reading the result raised
    something that is not an instance of [Exception]. *)
Theorem printed_shapes (w : World L) :
  printed (run_trace w) = [] \/
  (exists c e, is_Exception e = true /\ raised_in_call c e (run_trace w) /\
     printed (run_trace w) = ["Error: " +:+ exn_str e]) \/
  (exists c p res s, In (EvToolCall c p (Return res)) (run_trace w) /\
     result L res = Return s /\
     printed (run_trace w) = [the_header; s]) \/
  (exists c p res e, In (EvToolCall c p (Return res)) (run_trace w) /\
     result L res = Raise e /\ is_Exception e = true /\
     printed (run_trace w) = [the_header; "Error: " +:+ exn_str e]) \/
  (exists c p res e, In (EvToolCall c p (Return res)) (run_trace w) /\
     result L res = Raise e /\ is_Exception e = false /\
     printed (run_trace w) = [the_header]).
Proof.
  unfold raised_in_call.
  on_paths w; first
    [ by left
    | right; left; do 2 eexists; split; [eassumption|]; split; [|done];
      eauto 10
    | right; right; left; do 4 eexists; split; [|split; [eassumption|done]];
      eauto 10
    | right; right; right; left; do 4 eexists;
      split; [|split; [eassumption|split; [eassumption|done]]]; eauto 10
    | right; right; right; right; do 4 eexists;
      split; [|split; [eassumption|split; [eassumption|done]]]; eauto 10 ].
Qed.

(** The header is the first line printed exactly in the runs in which the
    tool call returned: it is printed before the result is looked at, and
    never otherwise. *)
Theorem header_iff_tool_call_returned (w : World L) :
  head (printed (run_trace w)) = Some the_header <->
  exists c res, In (EvToolCall c the_request (Return res)) (run_trace w).
Proof.
  on_paths w; split; intros; trace_facts; eauto 10.
Qed.

(** When the tool call returned an object whose [result] cannot be read,
    and reading it raised an error, the header is already out: the output
    is the header and then the error line, and the run ends as [close]
    ends. *)
Theorem unreadable_result_after_header
    (w : World L) (c : Connector L) (p : ToolCallParams)
    (res : ToolCallResult L) (e : exn) :
  In (EvToolCall c p (Return res)) (run_trace w) ->
  result L res = Raise e ->
  is_Exception e = true ->
  printed (run_trace w) = [the_header; "Error: " +:+ exn_str e] /\
  exists rc, In (EvClose c rc) (run_trace w) /\ run_outcome w = rc.
Proof.
  intros Hin Hres He.
  on_paths w; trace_facts; try congruence;
    (split; [congruence|]); eauto 10.
Qed.

End Output.

(** An event shown to be in a written-out trace, and an exception shown
    to have been raised in the try body. *)
Ltac in_trace := solve [ cbn; repeat first [ left; reflexivity | right ] ].

Ltac in_body :=
  first [ left; eexists; left; in_trace
        | left; eexists; right; eexists; in_trace
        | right; do 3 eexists; split; [in_trace | eassumption] ].

Section ExitAndOrder.

Context {L : MCP}.

(** [get_react_docs] ends normally exactly when the connector was built,
    [close] returned, and whatever was raised in between was an instance
    of [Exception]. *)
Theorem normal_end_iff (w : World L) :
  run_outcome w = Return tt <->
  (exists c, In (EvNew the_server_name (stdio L) (Return c)) (run_trace w) /\
             In (EvClose c (Return tt)) (run_trace w)) /\
  (forall e, raised_in_body e (run_trace w) -> is_Exception e = true).
Proof.
  unfold raised_in_body, raised_in_call.
  on_paths w; split.
  all: try (intros; discriminate).
  all: try (intros [(c' & Hnew & Hclose) _]; trace_facts; fail).
  all: try (intros _; split; [eauto 10|]; intros; trace_facts; congruence).
  all: try done.
  all: intros [_ Hall];
    match goal with
    | Hf : is_Exception ?e = false |- _ =>
        assert (is_Exception e = true) as Ht
          by (apply Hall; in_body);
        congruence
    end.
Qed.

(** An exception that leaves [get_react_docs] is one that was raised to
    it, unchanged: by the constructor, by [close], or, when it is not an
    instance of [Exception], between [try:] and [except]. *)
Theorem raised_comes_from_a_call (w : World L) (e : exn) :
  run_outcome w = Raise e ->
  (exists name ty, In (EvNew name ty (Raise e)) (run_trace w)) \/
  (exists c, In (EvClose c (Raise e)) (run_trace w)) \/
  (is_Exception e = false /\ raised_in_body e (run_trace w)).
Proof.
  unfold raised_in_body, raised_in_call.
  intros H. on_paths w; simplify_eq;
    first [ left; do 2 eexists; in_trace
          | right; left; eexists; in_trace
          | right; right; split; [done|]; in_body ].
Qed.

(** The events of a run come in the order of the text: constructor,
    [connect], [tool_call], prints, [close]; so no call is made twice and
    none out of turn. *)
Theorem events_in_order (w : World L) :
  StronglySorted happens_before (run_trace w).
Proof.
  on_paths w;
    repeat match goal with
           | |- StronglySorted _ _ => constructor
           | |- Forall _ _ => constructor
           end;
    unfold happens_before; cbn; lia.
Qed.




Lemma newlines_app (s1 s2 : string) :
  newlines (s1 +:+ s2) = (newlines s1 + newlines s2)%nat.
Proof.
  induction s1 as [|a s1 IH]; simpl; [done|]. rewrite IH. lia.
Qed.

(** What an error of [connect] or [tool_call] leaves on standard output is
    ["Error: "], the message, and a line break; this is one line exactly
    when the message has no line break of its own. *)
Theorem error_output_bytes (w : World L) (c : Connector L) (e : exn) :
  is_Exception e = true ->
  raised_in_call c e (run_trace w) ->
  stdout_text (printed (run_trace w)) =
    "Error: " +:+ exn_str e +:+ String "010"%char EmptyString /\
  newlines (stdout_text (printed (run_trace w))) = S (newlines (exn_str e)).
Proof.
  intros He H. unfold raised_in_call in H.
  on_paths w; trace_facts; try congruence; (split; [done|]);
    by rewrite newlines_app, Nat.add_comm.
Qed.

End ExitAndOrder.

(** ** The further statements at work *)

(** With a library that counts its calls, the tool call is the third call
    made, and four calls are made in all. *)
Example run_counting :
  main Counting.lib 0%nat =
  (Return tt, 4%nat,
   [@EvNew Counting.lib the_server_name tt (Return tt);
    @EvConnect Counting.lib tt (Return tt);
    @EvToolCall Counting.lib tt the_request (Return 2%nat);
    @EvPrint Counting.lib the_header;
    @EvPrint Counting.lib "third call";
    @EvClose Counting.lib tt (Return tt)]).
Proof. reflexivity. Qed.

Lemma header_iff_tool_call_returned_witness :
  (exists c res, In (@EvToolCall Scripted.lib c the_request (Return res))
                    (scripted_trace Scripted.all_fine)) /\
  head (printed (scripted_trace Scripted.all_fine)) = Some the_header.
Proof.
  assert (Hcall : exists c res,
             In (@EvToolCall Scripted.lib c the_request (Return res))
                (scripted_trace Scripted.all_fine)).
  { exists tt, (Some "docs"). cbn. tauto. }
  split; [exact Hcall|].
  apply (proj2 (header_iff_tool_call_returned (L := Scripted.lib)
                  Scripted.all_fine)).
  exact Hcall.
Defined.

Lemma unreadable_result_after_header_witness :
  In (Scripted.ToolCall (Return None))
     (scripted_trace Scripted.answer_without_result) /\
  printed (scripted_trace Scripted.answer_without_result) =
    [the_header; "Error: 'NoneType' object has no attribute 'result'"] /\
  exists rc,
    In (Scripted.Close rc) (scripted_trace Scripted.answer_without_result) /\
    scripted_outcome Scripted.answer_without_result = rc.
Proof.
  split; [cbn; tauto|].
  apply (unreadable_result_after_header (L := Scripted.lib)
           Scripted.answer_without_result tt the_request None
           Scripted.no_result_attribute).
  - cbn. tauto.
  - reflexivity.
  - reflexivity.
Defined.

Lemma normal_end_iff_witness :
  scripted_outcome Scripted.unreachable = Return tt /\
  exists c,
    In (@EvNew Scripted.lib the_server_name tt (Return c))
       (scripted_trace Scripted.unreachable) /\
    In (@EvClose Scripted.lib c (Return tt)) (scripted_trace Scripted.unreachable).
Proof.
  split; [reflexivity|].
  apply (proj1 (normal_end_iff (L := Scripted.lib) Scripted.unreachable)).
  reflexivity.
Defined.

Lemma raised_comes_from_a_call_witness :
  scripted_outcome Scripted.cancelled_in_tool_call = Raise Scripted.cancellation /\
  ((exists name ty, In (@EvNew Scripted.lib name ty (Raise Scripted.cancellation))
                       (scripted_trace Scripted.cancelled_in_tool_call)) \/
   (exists c, In (@EvClose Scripted.lib c (Raise Scripted.cancellation))
                 (scripted_trace Scripted.cancelled_in_tool_call)) \/
   (is_Exception Scripted.cancellation = false /\
    raised_in_body Scripted.cancellation
      (scripted_trace Scripted.cancelled_in_tool_call))).
Proof.
  split; [reflexivity|].
  apply (raised_comes_from_a_call (L := Scripted.lib)
           Scripted.cancelled_in_tool_call Scripted.cancellation).
  reflexivity.
Defined.


Lemma error_output_bytes_witness :
  scripted_raised tt Scripted.unreachable_error
    (scripted_trace Scripted.unreachable) /\
  stdout_text (printed (scripted_trace Scripted.unreachable)) =
    "Error: unreachable" +:+ String "010"%char EmptyString /\
  newlines (stdout_text (printed (scripted_trace Scripted.unreachable))) = 1%nat.
Proof.
  assert (Hraised : scripted_raised tt Scripted.unreachable_error
                      (scripted_trace Scripted.unreachable)).
  { left. cbn. tauto. }
  split; [exact Hraised|].
  apply (error_output_bytes (L := Scripted.lib) Scripted.unreachable tt
           Scripted.unreachable_error eq_refl Hraised).
Defined.
